(** * cloudbio.edition.base: the provisioning editions and their hooks

    A shallow embedding of [cloudbio/edition/base.py]: the class [Edition]
    and its three subclasses [CloudBioLinux], [BioNode] and [Minimal], with
    the Python run-time behaviour the hooks rely on (attribute lookup on the
    fabric environment, truthiness, string formatting, list objects that are
    shared by reference, exceptions, remote command execution and logging)
    written out as an explicit state-and-exception monad. *)

From Stdlib Require Import Ascii String.
From stdpp Require Import gmap strings list fin_maps sorting.

Local Open Scope string_scope.
Local Open Scope list_scope.

(** ** Python values held by the environment *)

(** The fabric environment is a dictionary whose keys are also readable as
    attributes.  The values this module reads from it are strings, [None],
    a logger and a callable that runs a privileged command on the target
    host; the last two carry the text Python prints for them. *)
Inductive pyval : Type :=
  | VNone
  | VStr (s : string)
  | VLogger (shown : string)
  | VSudo (shown : string).

Global Instance pyval_eq_dec : EqDecision pyval.
Proof. solve_decision. Defined.

Abbreviation Env := (gmap string pyval).

(** [str(v)], as used by [str.format] and the [%s] conversion. *)
Definition py_str (v : pyval) : string :=
  match v with
  | VNone => "None"
  | VStr s => s
  | VLogger shown => shown
  | VSudo shown => shown
  end.

(** Truth value of an object: [None] and the empty string are false. *)
Definition truthy (v : pyval) : bool :=
  match v with
  | VNone => false
  | VStr s => negb (bool_decide (s = ""))
  | VLogger _ => true
  | VSudo _ => true
  end.

(** The name of the type of a value, for error reports. *)
Definition type_name (v : pyval) : string :=
  match v with
  | VNone => "NoneType"
  | VStr _ => "str"
  | VLogger _ => "Logger"
  | VSudo _ => "function"
  end.

(** [v in l] for a list [l] of string literals: equality with an element. *)
Definition py_in_strs (v : pyval) (l : list string) : bool :=
  match v with
  | VStr s => bool_decide (s ∈ l)
  | _ => false
  end.

(** [e.get(k)]: the value under [k], [None] when the key is absent. *)
Definition env_get (e : Env) (k : string) : pyval :=
  default VNone (e !! k).

(** Truth value of an optional environment argument: [None] is false and a
    dictionary is true when it has at least one key. *)
Definition env_truthy (o : option Env) : bool :=
  match o with
  | None => false
  | Some e => negb (bool_decide (e = ∅))
  end.

(** ** Exceptions, events and the world *)

Abbreviation loc := positive.

Inductive exn : Type :=
  | AttributeError (owner attr : string)
  | TypeError (msg : string)
  | KeyError (key : string)
  | ValueError (msg : string)
  (** a failure of the remote-execution layer, passed on unchanged *)
  | RemoteFailure (cmd : string)
  (** not a Python exception: reading a location that holds no object,
      which a running program cannot do; it keeps the model total *)
  | InvalidReference (l : loc).

(** Which function ran a privileged command: the global [sudo] of
    [fabric.api] or the environment's own [safe_sudo]. *)
Inductive channel : Type := GlobalSudo | EnvSafeSudo.

Inductive event : Type :=
  | LogDebug (msg : string)
  | RemoteExec (via : channel) (cmd : string)
  (** a call into a collaborator module, by the name of the function *)
  | Collaborator (fn : string).

Global Instance channel_eq_dec : EqDecision channel.
Proof. solve_decision. Defined.
Global Instance event_eq_dec : EqDecision event.
Proof. solve_decision. Defined.

(** The state a hook runs in.  [fabric_env] is the global [env] that
    [from fabric.api import *] brings into the module; [remote_ok] says of
    each command whether the target host runs it successfully; [trace]
    collects, oldest first, what the hooks did to the outside; [heap] holds
    the list objects that callers pass by reference. *)
Record World : Type := mkWorld {
  fabric_env : Env;
  remote_ok : string → bool;
  trace : list event;
  heap : gmap loc (list string)
}.

Definition emit (ev : event) (w : World) : World :=
  mkWorld (fabric_env w) (remote_ok w) (trace w ++ [ev]) (heap w).

Definition set_heap (h : gmap loc (list string)) (w : World) : World :=
  mkWorld (fabric_env w) (remote_ok w) (trace w) h.

Inductive outcome (A : Type) : Type :=
  | Returned (a : A)
  | Raised (e : exn).
Arguments Returned {A} a.
Arguments Raised {A} e.

(** A computation reads and changes the world and returns or raises; what
    it did before raising stays done. *)
Definition M (A : Type) : Type := World → outcome A * World.

Global Instance M_ret : MRet M := λ A a w, (Returned a, w).
Global Instance M_bind : MBind M := λ A B f m w,
  match m w with
  | (Returned a, w') => f a w'
  | (Raised e, w') => (Raised e, w')
  end.

Definition raise {A} (e : exn) : M A := λ w, (Raised e, w).
Definition log_event (ev : event) : M unit := λ w, (Returned (), emit ev w).
Definition get_fabric_env : M Env := λ w, (Returned (fabric_env w), w).

(** [for x in l: body x] *)
Fixpoint for_each {A} (l : list A) (body : A → M unit) : M unit :=
  match l with
  | [] => mret ()
  | x :: l' => body x;; for_each l' body
  end.

(** ** Attribute access, logging and remote commands *)

(** [e.a] on the environment: a missing key is an [AttributeError]. *)
Definition getattr (e : Env) (a : string) : M pyval :=
  match e !! a with
  | Some v => mret v
  | None => raise (AttributeError "_AttributeDict" a)
  end.

(** [o.a] where [o] is an argument that defaults to [None]. *)
Definition getattr_opt (o : option Env) (a : string) : M pyval :=
  match o with
  | Some e => getattr e a
  | None => raise (AttributeError "NoneType" a)
  end.

(** [lg.debug(msg)] *)
Definition logger_debug (lg : pyval) (msg : string) : M unit :=
  match lg with
  | VLogger _ => log_event (LogDebug msg)
  | _ => raise (AttributeError (type_name lg) "debug")
  end.

(** Running [cmd] on the target host: the call is recorded, and a failure
    of the host surfaces as it is. *)
Definition host_runs (cmd : string) : M unit :=
  λ w, if remote_ok w cmd then (Returned (), w)
       else (Raised (RemoteFailure cmd), w).

Definition remote_exec (via : channel) (cmd : string) : M unit :=
  log_event (RemoteExec via cmd);; host_runs cmd.

(** The global [sudo(cmd)]. *)
Definition sudo (cmd : string) : M unit := remote_exec GlobalSudo cmd.

(** [f(cmd)] for a value [f] read from the environment. *)
Definition py_call (f : pyval) (cmd : string) : M unit :=
  match f with
  | VSudo _ => remote_exec EnvSafeSudo cmd
  | _ => raise (TypeError (type_name f +:+ " object is not callable"))
  end.

(** ** List objects *)

(** The contents of the list object at [l]. *)
Definition read_list (l : loc) : M (list string) := λ w,
  match heap w !! l with
  | Some xs => (Returned xs, w)
  | None => (Raised (InvalidReference l), w)
  end.

(** [l.append(x)]: the object at [l] grows in place. *)
Definition list_append (l : loc) (x : string) : M unit := λ w,
  match heap w !! l with
  | Some xs => (Returned (), set_heap (<[l := xs ++ [x]]> (heap w)) w)
  | None => (Raised (InvalidReference l), w)
  end.

(** A new list object holding [xs], at a location not in use. *)
Definition new_list (xs : list string) : M loc := λ w,
  let l := fresh (dom (heap w)) in
  (Returned l, set_heap (<[l := xs]> (heap w)) w).

(** [x in l] for the list object at [l]. *)
Definition list_contains (l : loc) (x : string) : M bool :=
  xs ← read_list l; mret (bool_decide (x ∈ xs)).

(** ** Strings *)

(** [s.split(sep)] for a separator of one character: one piece more than
    there are separators, the empty string included. *)
Fixpoint split (sep : ascii) (s : string) : list string :=
  match s with
  | EmptyString => [""]
  | String c s' =>
      if Ascii.eqb c sep then "" :: split sep s'
      else match split sep s' with
           | piece :: rest => String c piece :: rest
           | [] => [String c ""]
           end
  end.

(** The keyword arguments of a [format] call. *)
Fixpoint keyword (nm : string) (kw : list (string * pyval)) : option pyval :=
  match kw with
  | [] => None
  | (k, v) :: kw' => if String.eqb k nm then Some v else keyword nm kw'
  end.

(** [t.format] with keyword arguments [kw], for templates made of text
    and named fields [{nm}]
    (no doubled braces, conversions or format specifications, none of
    which this module writes).  [field] holds the name read so far while
    inside braces. *)
Fixpoint format_from (t : string) (kw : list (string * pyval))
    (field : option string) : outcome string :=
  match t with
  | EmptyString =>
      match field with
      | None => Returned ""
      | Some _ => Raised (ValueError "expected '}' before end of string")
      end
  | String c t' =>
      match field with
      | None =>
          if Ascii.eqb c "{" then format_from t' kw (Some "")
          else if Ascii.eqb c "}" then
            Raised (ValueError "Single '}' encountered in format string")
          else match format_from t' kw None with
               | Returned s => Returned (String c s)
               | Raised e => Raised e
               end
      | Some nm =>
          if Ascii.eqb c "}" then
            match keyword nm kw with
            | None => Raised (KeyError nm)
            | Some v =>
                match format_from t' kw None with
                | Returned s => Returned (py_str v +:+ s)
                | Raised e => Raised e
                end
            end
          else format_from t' kw (Some (nm +:+ String c ""))
      end
  end.

Definition format (t : string) (kw : list (string * pyval)) : M string :=
  λ w, (format_from t kw None, w).

(** [t % v] for a template whose only conversion is a [%s]. *)
Fixpoint percent (t : string) (v : pyval) : string :=
  match t with
  | String "%" (String "s" t') => py_str v +:+ t'
  | String c t' => String c (percent t' v)
  | EmptyString => ""
  end.

(** ** Edition objects and classes *)

(** The attributes [__init__] gives an edition. *)
Record Self : Type := mkSelf {
  name : string;
  short_name : string;
  version : pyval;
  env : Env
}.

(** [self.name = n] and [self.short_name = n] *)
Definition set_name (n : string) (self : Self) : Self :=
  mkSelf n (short_name self) (version self) (env self).
Definition set_short_name (n : string) (self : Self) : Self :=
  mkSelf (name self) n (version self) (env self).

(** A class is the table of its methods; a subclass repeats the entries it
    inherits and replaces those it overrides. *)
Record EditionClass : Type := mkClass {
  m_check_distribution : Self → M unit;
  m_check_packages_source : Self → M unit;
  m_rewrite_apt_sources_list : Self → list string → M (list string);
  m_rewrite_apt_preferences : Self → list string → M (list string);
  m_rewrite_apt_automation : Self → list string → M (list string);
  m_rewrite_apt_keys :
    Self → list string → list string → M (list string * list string);
  m_apt_upgrade_system : Self → option Env → M unit;
  m_post_install : Self → option (list string) → M unit;
  m_rewrite_config_items : Self → string → loc → M loc
}.

(** The bound method [lg.debug]: looked up before its argument is
    evaluated. *)
Definition bound_debug (lg : pyval) : M (string → M unit) :=
  match lg with
  | VLogger _ => mret (λ msg, logger_debug lg msg)
  | _ => raise (AttributeError (type_name lg) "debug")
  end.

Module Edition.

(** [__init__]; [cls] is the class of the object under construction, so
    that [self.check_distribution()] reaches an override. *)
Definition init (cls : EditionClass) (env : Env) : M Self :=
  let nm := "BioLinux base Edition" in
  let sn := "biolinux" in
  v ← getattr env "version";
  let self := mkSelf nm sn v env in
  m_check_distribution cls self;;
  mret self.

Definition check_distribution (self : Self) : M unit := mret ().

Definition check_packages_source (self : Self) : M unit := mret ().

Definition rewrite_apt_sources_list (self : Self) (sources : list string)
  : M (list string) := mret sources.

Definition rewrite_apt_preferences (self : Self) (preferences : list string)
  : M (list string) := mret preferences.

Definition rewrite_apt_automation (self : Self) (package_info : list string)
  : M (list string) := mret package_info.

Definition rewrite_apt_keys (self : Self) (standalone keyserver : list string)
  : M (list string * list string) := mret (standalone, keyserver).

Definition apt_upgrade_system (self : Self) (env : option Env) : M unit :=
  sudo_cmd ← (if env_truthy env
              then f ← getattr_opt env "safe_sudo"; mret (py_call f)
              else mret sudo);
  sudo_cmd "apt-get -y --force-yes upgrade".

Definition post_install (self : Self) (pkg_install : option (list string))
  : M unit := mret ().

Definition rewrite_config_items (self : Self) (name : string) (items : loc)
  : M loc := mret items.

Definition cls : EditionClass := {|
  m_check_distribution := check_distribution;
  m_check_packages_source := check_packages_source;
  m_rewrite_apt_sources_list := rewrite_apt_sources_list;
  m_rewrite_apt_preferences := rewrite_apt_preferences;
  m_rewrite_apt_automation := rewrite_apt_automation;
  m_rewrite_apt_keys := rewrite_apt_keys;
  m_apt_upgrade_system := apt_upgrade_system;
  m_post_install := post_install;
  m_rewrite_config_items := rewrite_config_items
|}.

(** [Edition(env)] *)
Definition new (env : Env) : M Self := init cls env.

End Edition.

Module CloudBioLinux.

Definition init (cls : EditionClass) (env : Env) : M Self :=
  self ← Edition.init cls env;
  let self := set_name "CloudBioLinux Edition" self in
  let self := set_short_name "cloudbiolinux" self in
  mret self.

Definition rewrite_config_items (self : Self) (name : string) (items : loc)
  : M loc :=
  let to_add := ["galaxy"; "galaxy_tools"; "cloudman"] in
  for_each to_add (λ x,
    present ← list_contains items x;
    if negb present then list_append items x else mret ());;
  mret items.

Definition post_install (self : Self) (pkg_install : option (list string))
  : M unit :=
  log_event (Collaborator "_freenx_scripts");;
  match pkg_install with
  | Some pkgs =>
      if bool_decide ("cloudman" ∈ pkgs)
      then log_event (Collaborator "_configure_cloudman")
      else mret ()
  | None => mret ()
  end.

Definition cls : EditionClass := {|
  m_check_distribution := Edition.check_distribution;
  m_check_packages_source := Edition.check_packages_source;
  m_rewrite_apt_sources_list := Edition.rewrite_apt_sources_list;
  m_rewrite_apt_preferences := Edition.rewrite_apt_preferences;
  m_rewrite_apt_automation := Edition.rewrite_apt_automation;
  m_rewrite_apt_keys := Edition.rewrite_apt_keys;
  m_apt_upgrade_system := Edition.apt_upgrade_system;
  m_post_install := post_install;
  m_rewrite_config_items := rewrite_config_items
|}.

(** [CloudBioLinux(env)] *)
Definition new (env : Env) : M Self := init cls env.

End CloudBioLinux.

Module BioNode.

Definition init (cls : EditionClass) (env : Env) : M Self :=
  self ← Edition.init cls env;
  let self := set_name "BioNode Edition" self in
  let self := set_short_name "bionode" self in
  mret self.

(** The test on the distribution is commented out in the source; what is
    left is [pass]. *)
Definition check_distribution (self : Self) : M unit := mret ().

Definition check_packages_source (self : Self) : M unit :=
  lg ← getattr (env self) "logger";
  debug ← bound_debug lg;
  sources_file ← getattr (env self) "sources_file";
  debug (percent "Clearing %s" sources_file);;
  sources_file ← getattr (env self) "sources_file";
  sudo (percent "cat /dev/null > %s" sources_file).

(** [self.env] is the environment the edition was built with, [env] the
    global one of [fabric.api]: the distribution is read from the first,
    the repository and the distribution name from the second. *)
Definition rewrite_apt_sources_list (self : Self) (sources : list string)
  : M (list string) :=
  lg ← getattr (env self) "logger";
  debug ← bound_debug lg;
  debug "BioNode.rewrite_apt_sources_list!";;
  let new_sources := [] in
  distribution ← getattr (env self) "distribution";
  new_sources ←
    (if py_in_strs distribution ["debian"] then
       env ← get_fabric_env;
       main_repository ←
         (if negb (truthy (env_get env "debian_repository"))
          then mret (VStr "http://ftp.us.debian.org/debian/")
          else getattr env "debian_repository");
       dist ← getattr env "dist_name";
       s1 ← format "deb {repo} {dist} main contrib non-free"
                   [("repo", main_repository); ("dist", dist)];
       dist ← getattr env "dist_name";
       s2 ← format "deb {repo} {dist}-updates main contrib non-free"
                   [("repo", main_repository); ("dist", dist)];
       s3 ← format "deb {repo} testing main contrib non-free"
                   [("repo", main_repository)];
       mret (new_sources ++ [s1; s2; s3])
     else mret new_sources);
  let new_sources :=
    new_sources ++ ["deb http://nebc.nerc.ac.uk/bio-linux/ unstable bio-linux"] in
  mret new_sources.

Definition rewrite_apt_preferences (self : Self) (preferences : list string)
  : M (list string) :=
  let preferences := "Package: *
Package: *
Pin: release n=natty
Pin-Priority: 900

Package: *
Pin: release a=stable
Pin-Priority: 700

Package: *
Pin: release a=testing
Pin-Priority: 650

Package: *
Pin: release a=bio-linux
Pin-Priority: 400
" in
  (* "010" is the newline character *)
  mret (split "010" preferences).

Definition rewrite_apt_automation (self : Self) (package_info : list string)
  : M (list string) := mret [].

Definition rewrite_apt_keys (self : Self) (standalone keyserver : list string)
  : M (list string * list string) := mret ([], []).

Definition rewrite_config_items (self : Self) (name : string) (items : loc)
  : M loc :=
  if bool_decide (name = "minimal") then
    xs ← read_list items;
    new_list (xs ++ ["bio-linux-keyring"])
  else mret items.

Definition cls : EditionClass := {|
  m_check_distribution := check_distribution;
  m_check_packages_source := check_packages_source;
  m_rewrite_apt_sources_list := rewrite_apt_sources_list;
  m_rewrite_apt_preferences := rewrite_apt_preferences;
  m_rewrite_apt_automation := rewrite_apt_automation;
  m_rewrite_apt_keys := rewrite_apt_keys;
  m_apt_upgrade_system := Edition.apt_upgrade_system;
  m_post_install := Edition.post_install;
  m_rewrite_config_items := rewrite_config_items
|}.

(** [BioNode(env)] *)
Definition new (env : Env) : M Self := init cls env.

End BioNode.

Module Minimal.

Definition init (cls : EditionClass) (env : Env) : M Self :=
  self ← Edition.init cls env;
  let self := set_name "Minimal Edition" self in
  let self := set_short_name "minimal" self in
  mret self.

Definition rewrite_apt_sources_list (self : Self) (sources : list string)
  : M (list string) :=
  mret ["deb http://nebc.nerc.ac.uk/bio-linux/ unstable bio-linux"].

Definition rewrite_apt_automation (self : Self) (package_info : list string)
  : M (list string) := mret [].

Definition rewrite_apt_keys (self : Self) (standalone keyserver : list string)
  : M (list string * list string) := mret ([], []).

(** The logger is read from the argument [env], not from [self.env]. *)
Definition apt_upgrade_system (self : Self) (env : option Env) : M unit :=
  lg ← getattr_opt env "logger";
  debug ← bound_debug lg;
  debug "Skipping forced system upgrade".

Definition rewrite_config_items (self : Self) (name : string) (items : loc)
  : M loc := mret items.

Definition cls : EditionClass := {|
  m_check_distribution := Edition.check_distribution;
  m_check_packages_source := Edition.check_packages_source;
  m_rewrite_apt_sources_list := rewrite_apt_sources_list;
  m_rewrite_apt_preferences := Edition.rewrite_apt_preferences;
  m_rewrite_apt_automation := rewrite_apt_automation;
  m_rewrite_apt_keys := rewrite_apt_keys;
  m_apt_upgrade_system := apt_upgrade_system;
  m_post_install := Edition.post_install;
  m_rewrite_config_items := rewrite_config_items
|}.

(** [Minimal(env)] *)
Definition new (env : Env) : M Self := init cls env.

End Minimal.

(** ** The four editions *)

Inductive kind : Type := KEdition | KCloudBioLinux | KBioNode | KMinimal.

Definition class_of (k : kind) : EditionClass :=
  match k with
  | KEdition => Edition.cls
  | KCloudBioLinux => CloudBioLinux.cls
  | KBioNode => BioNode.cls
  | KMinimal => Minimal.cls
  end.

(** The [__init__] that runs for an object of kind [k]; [cls] is the class
    of the object, [class_of k] or a subclass of it. *)
Definition init_of (k : kind) : EditionClass → Env → M Self :=
  match k with
  | KEdition => Edition.init
  | KCloudBioLinux => CloudBioLinux.init
  | KBioNode => BioNode.init
  | KMinimal => Minimal.init
  end.

(** Instantiating the class of kind [k]. *)
Definition construct (k : kind) (env : Env) : M Self :=
  init_of k (class_of k) env.

(** A subclass of [cls] that overrides [check_distribution] alone. *)
Definition with_check (chk : Self → M unit) (cls : EditionClass)
  : EditionClass :=
  mkClass chk
    (m_check_packages_source cls) (m_rewrite_apt_sources_list cls)
    (m_rewrite_apt_preferences cls) (m_rewrite_apt_automation cls)
    (m_rewrite_apt_keys cls) (m_apt_upgrade_system cls)
    (m_post_install cls) (m_rewrite_config_items cls).

(** The name and short name an edition of each kind ends up with. *)
Definition display_name (k : kind) : string :=
  match k with
  | KEdition => "BioLinux base Edition"
  | KCloudBioLinux => "CloudBioLinux Edition"
  | KBioNode => "BioNode Edition"
  | KMinimal => "Minimal Edition"
  end.

Definition short_key (k : kind) : string :=
  match k with
  | KEdition => "biolinux"
  | KCloudBioLinux => "cloudbiolinux"
  | KBioNode => "bionode"
  | KMinimal => "minimal"
  end.

(** ** Observations used in the statements *)

(** The privileged commands of a trace, in the order they were run. *)
Fixpoint remote_calls (t : list event) : list (channel * string) :=
  match t with
  | [] => []
  | RemoteExec via cmd :: t' => (via, cmd) :: remote_calls t'
  | _ :: t' => remote_calls t'
  end.

(** How often [x] occurs in [xs]. *)
Definition occurrences (x : string) (xs : list string) : nat :=
  length (filter (λ y, y = x) xs).

(** [s] without the prefix [p], when it starts with it. *)
Fixpoint strip_prefix (p s : string) : option string :=
  match p, s with
  | EmptyString, _ => Some s
  | String a p', String b s' =>
      if Ascii.eqb a b then strip_prefix p' s' else None
  | String _ _, EmptyString => None
  end.

(** The number a string of decimal digits writes, after [acc]. *)
Fixpoint decimal (s : string) (acc : N) : option N :=
  match s with
  | EmptyString => Some acc
  | String c s' =>
      let code := N_of_ascii c in
      if bool_decide (48 ≤ code ≤ 57)%N then decimal s' (10 * acc + (code - 48))%N
      else None
  end.

(** The tiers of a preferences file: each [Pin:] line that is followed by
    its [Pin-Priority:] line, as the pin and its priority. *)
Fixpoint pin_tiers (lines : list string) : list (string * N) :=
  match lines with
  | [] => []
  | l1 :: rest =>
      match strip_prefix "Pin: " l1, rest with
      | Some pin, l2 :: _ =>
          match strip_prefix "Pin-Priority: " l2 with
          | Some digits =>
              match decimal digits 0 with
              | Some n => (pin, n) :: pin_tiers rest
              | None => pin_tiers rest
              end
          | None => pin_tiers rest
          end
      | _, _ => pin_tiers rest
      end
  end.

(** The entries of [to_add] that [xs] lacks are appended, one at a time:
    the loop of [CloudBioLinux.rewrite_config_items] on the contents. *)
Fixpoint add_missing (to_add xs : list string) : list string :=
  match to_add with
  | [] => xs
  | x :: to_add' =>
      add_missing to_add' (if bool_decide (x ∈ xs) then xs else xs ++ [x])
  end.

(** ** Constants and sample inputs of the statements *)

Definition bio_linux_repo : string :=
  "deb http://nebc.nerc.ac.uk/bio-linux/ unstable bio-linux".

Definition upgrade_cmd : string := "apt-get -y --force-yes upgrade".

(** The entries [CloudBioLinux.rewrite_config_items] makes sure of. *)
Definition cloud_items : list string := ["galaxy"; "galaxy_tools"; "cloudman"].

(** What [BioNode.rewrite_apt_preferences] returns, line by line. *)
Definition pinning_policy : list string :=
  ["Package: *"; "Package: *"; "Pin: release n=natty"; "Pin-Priority: 900"; "";
   "Package: *"; "Pin: release a=stable"; "Pin-Priority: 700"; "";
   "Package: *"; "Pin: release a=testing"; "Pin-Priority: 650"; "";
   "Package: *"; "Pin: release a=bio-linux"; "Pin-Priority: 400"; ""].

(** The function [sudo_cmd] of [Edition.apt_upgrade_system] can be found:
    the [env] argument is left out or empty, so that the global [sudo] is
    taken, or it provides a callable [safe_sudo]. *)
Definition sudo_available (env : option Env) : Prop :=
  env_truthy env = false ∨
  ∃ e shown, env = Some e ∧ e !! "safe_sudo" = Some (VSudo shown).

(** A Debian host and an Ubuntu host, as the provisioning run sets up the
    environment. *)
Definition debian_env : Env :=
  <["version" := VStr "1.0"]>
  (<["logger" := VLogger "<logging.Logger>"]>
  (<["safe_sudo" := VSudo "<function safe_sudo>"]>
  (<["distribution" := VStr "debian"]>
  (<["dist_name" := VStr "squeeze"]> ∅)))).

Definition ubuntu_env : Env :=
  <["version" := VStr "1.0"]>
  (<["logger" := VLogger "<logging.Logger>"]>
  (<["safe_sudo" := VSudo "<function safe_sudo>"]>
  (<["distribution" := VStr "ubuntu"]>
  (<["dist_name" := VStr "natty"]> ∅)))).

(** A world whose global environment is [e], whose host runs every
    command, and in which the list object at location 1 holds [xs]. *)
Definition world_with (e : Env) (xs : list string) : World :=
  mkWorld e (λ _, true) [] {[ 1%positive := xs ]}.

Definition node_on (e : Env) : Self :=
  mkSelf "BioNode Edition" "bionode" (VStr "1.0") e.

Definition cloud_on (e : Env) : Self :=
  mkSelf "CloudBioLinux Edition" "cloudbiolinux" (VStr "1.0") e.

(** ** Further observations *)

(** The three entries for a Debian mirror [repo] and release [dist], as
    the templates of [BioNode.rewrite_apt_sources_list] spell them. *)
Definition debian_entries (repo dist : pyval) : list string :=
  ["deb " +:+ py_str repo +:+ " " +:+ py_str dist +:+ " main contrib non-free";
   "deb " +:+ py_str repo +:+ " " +:+ py_str dist
     +:+ "-updates main contrib non-free";
   "deb " +:+ py_str repo +:+ " testing main contrib non-free"].

(** The mirror the hook settles on: the repository of the environment
    when it is set to something true, the US mirror otherwise. *)
Definition chosen_mirror (e : Env) : pyval :=
  if truthy (env_get e "debian_repository") then env_get e "debian_repository"
  else VStr "http://ftp.us.debian.org/debian/".

(** The line [BioNode.rewrite_apt_sources_list] logs. *)
Definition sources_log : event := LogDebug "BioNode.rewrite_apt_sources_list!".

(** The command [BioNode.check_packages_source] empties a file with. *)
Definition clear_cmd (sources_file : pyval) : string :=
  "cat /dev/null > " +:+ py_str sources_file.

(** [sep.join(l)] *)
Fixpoint join_with (sep : string) (l : list string) : string :=
  match l with
  | [] => ""
  | [x] => x
  | x :: l' => x +:+ sep +:+ join_with sep l'
  end.

(** The characters of a string. *)
Fixpoint string_chars (s : string) : list ascii :=
  match s with
  | EmptyString => []
  | String c s' => c :: string_chars s'
  end.

(** A Debian host with a mirror of its own, and one that knows where its
    package sources are kept. *)
Definition mirror_env : Env :=
  <["debian_repository" := VStr "http://ftp.de.debian.org/debian/"]> debian_env.

Definition apt_env : Env :=
  <["sources_file" := VStr "/etc/apt/sources.list"]> debian_env.

(** A Debian host whose own environment names another release than the
    global one does. *)
Definition lenny_env : Env := <["dist_name" := VStr "lenny"]> debian_env.

(** * Properties *)

(** ** Running a computation *)

Lemma getattr_some (e : Env) (a : string) (v : pyval) (w : World) :
  e !! a = Some v → getattr e a w = (Returned v, w).
Proof. intros He. unfold getattr. by rewrite He. Qed.

Lemma getattr_none (e : Env) (a : string) (w : World) :
  e !! a = None →
  getattr e a w = (Raised (AttributeError "_AttributeDict" a), w).
Proof. intros He. unfold getattr. by rewrite He. Qed.

Lemma set_heap_same (w : World) : set_heap (heap w) w = w.
Proof. by destruct w. Qed.

Lemma remote_calls_app (t1 t2 : list event) :
  remote_calls (t1 ++ t2) = remote_calls t1 ++ remote_calls t2.
Proof.
  induction t1 as [|ev t1 IH]; [reflexivity|].
  destruct ev; cbn; rewrite IH; reflexivity.
Qed.

(** A remote command is recorded whether or not the host runs it. *)
Lemma remote_exec_calls (via : channel) (cmd : string) (w : World) :
  remote_calls (trace (remote_exec via cmd w).2)
  = remote_calls (trace w) ++ [(via, cmd)].
Proof.
  unfold remote_exec, mbind, M_bind, log_event, host_runs.
  cbn [remote_ok emit].
  destruct (remote_ok w cmd); cbn [snd trace emit];
    by rewrite remote_calls_app.
Qed.

(** ** The package source list of BioNode *)

Lemma sources_debian (self : Self) (sources : list string) (w : World)
    (shown : string) (dn : pyval) :
  env self !! "logger" = Some (VLogger shown) →
  env self !! "distribution" = Some (VStr "debian") →
  truthy (env_get (fabric_env w) "debian_repository") = false →
  fabric_env w !! "dist_name" = Some dn →
  BioNode.rewrite_apt_sources_list self sources w =
    (Returned
       ["deb http://ftp.us.debian.org/debian/ " +:+ py_str dn
          +:+ " main contrib non-free";
        "deb http://ftp.us.debian.org/debian/ " +:+ py_str dn
          +:+ "-updates main contrib non-free";
        "deb http://ftp.us.debian.org/debian/ testing main contrib non-free";
        bio_linux_repo],
     emit (LogDebug "BioNode.rewrite_apt_sources_list!") w).
Proof.
  intros Hlg Hdist Hrepo Hdn.
  unfold BioNode.rewrite_apt_sources_list, mbind, M_bind, getattr,
    get_fabric_env, bound_debug, mret, M_ret.
  rewrite Hlg. cbv beta iota. unfold logger_debug, log_event.
  rewrite Hdist. cbv beta iota.
  change (py_in_strs (VStr "debian") ["debian"]) with true. cbv beta iota.
  cbn [fabric_env emit]. rewrite Hrepo, Hdn. cbn [negb]. cbv beta iota.
  unfold format. cbn. reflexivity.
Qed.

Lemma sources_elsewhere (self : Self) (sources : list string) (w : World)
    (shown : string) (dv : pyval) :
  env self !! "logger" = Some (VLogger shown) →
  env self !! "distribution" = Some dv →
  dv ≠ VStr "debian" →
  BioNode.rewrite_apt_sources_list self sources w =
    (Returned [bio_linux_repo],
     emit (LogDebug "BioNode.rewrite_apt_sources_list!") w).
Proof.
  intros Hlg Hdist Hne.
  assert (Hin : py_in_strs dv ["debian"] = false).
  { destruct dv as [|s| |]; try reflexivity. cbn.
    apply bool_decide_eq_false. rewrite list_elem_of_singleton. congruence. }
  unfold BioNode.rewrite_apt_sources_list, mbind, M_bind, getattr,
    bound_debug, mret, M_ret.
  rewrite Hlg. cbv beta iota. unfold logger_debug, log_event.
  rewrite Hdist. cbv beta iota. rewrite Hin. reflexivity.
Qed.

(** C1: what [BioNode.rewrite_apt_sources_list] returns does not depend on
    the sequence it is given.  On a Debian host (the edition's environment
    has a logger and the distribution "debian") with no repository set in
    the global environment, the first entry returned is
    "deb http://ftp.us.debian.org/debian/ <dist_name> main contrib non-free",
    with the dist name of the global environment, and the last one is the
    bio-linux repository; when the distribution is anything else, the
    bio-linux repository is the only entry. *)
Theorem bionode_sources_list (self : Self) (sources : list string)
    (w : World) :
  (∀ sources',
     BioNode.rewrite_apt_sources_list self sources' w
     = BioNode.rewrite_apt_sources_list self sources w)
  ∧ (∀ shown dn,
       env self !! "logger" = Some (VLogger shown) →
       env self !! "distribution" = Some (VStr "debian") →
       fabric_env w !! "debian_repository" = None →
       fabric_env w !! "dist_name" = Some dn →
       ∃ out,
         (BioNode.rewrite_apt_sources_list self sources w).1 = Returned out
         ∧ head out = Some ("deb http://ftp.us.debian.org/debian/ "
                            +:+ py_str dn +:+ " main contrib non-free")
         ∧ last out = Some bio_linux_repo)
  ∧ (∀ shown dv,
       env self !! "logger" = Some (VLogger shown) →
       env self !! "distribution" = Some dv →
       dv ≠ VStr "debian" →
       (BioNode.rewrite_apt_sources_list self sources w).1
       = Returned [bio_linux_repo]).
Proof.
  split; [reflexivity|]. split.
  - intros shown dn Hlg Hdist Hrepo Hdn.
    assert (Hfalsy : truthy (env_get (fabric_env w) "debian_repository") = false)
      by (unfold env_get; by rewrite Hrepo).
    rewrite (sources_debian self sources w shown dn Hlg Hdist Hfalsy Hdn).
    eexists. split; [reflexivity|]. split; reflexivity.
  - intros shown dv Hlg Hdist Hne.
    by rewrite (sources_elsewhere self sources w shown dv Hlg Hdist Hne).
Qed.

Lemma bionode_sources_list_witness :
  (∃ out,
     (BioNode.rewrite_apt_sources_list (node_on debian_env)
        ["deb http://mirror.example.org/ lucid main"]
        (world_with debian_env [])).1 = Returned out
     ∧ head out
       = Some "deb http://ftp.us.debian.org/debian/ squeeze main contrib non-free"
     ∧ last out = Some bio_linux_repo)
  ∧ (BioNode.rewrite_apt_sources_list (node_on ubuntu_env)
       ["deb http://mirror.example.org/ lucid main"]
       (world_with ubuntu_env [])).1 = Returned [bio_linux_repo].
Proof.
  split.
  - apply (proj1 (proj2 (bionode_sources_list (node_on debian_env)
             ["deb http://mirror.example.org/ lucid main"]
             (world_with debian_env [])))
           "<logging.Logger>" (VStr "squeeze"));
      vm_compute; reflexivity.
  - apply (proj2 (proj2 (bionode_sources_list (node_on ubuntu_env)
             ["deb http://mirror.example.org/ lucid main"]
             (world_with ubuntu_env [])))
           "<logging.Logger>" (VStr "ubuntu"));
      [vm_compute; reflexivity | vm_compute; reflexivity | discriminate].
Defined.

(** ** Hooks that hand their input back, and hooks that drop it *)

(** C3: in the base edition and in CloudBioLinux, the four apt hooks
    ([rewrite_apt_sources_list], [rewrite_apt_preferences],
    [rewrite_apt_automation], [rewrite_apt_keys]) return what they were
    given, for every input, and change nothing. *)
Theorem identity_hooks (self : Self)
    (sources preferences package_info standalone keyserver : list string)
    (w : World) :
  Forall (λ cls,
    m_rewrite_apt_sources_list cls self sources w = (Returned sources, w)
    ∧ m_rewrite_apt_preferences cls self preferences w
      = (Returned preferences, w)
    ∧ m_rewrite_apt_automation cls self package_info w
      = (Returned package_info, w)
    ∧ m_rewrite_apt_keys cls self standalone keyserver w
      = (Returned (standalone, keyserver), w))
    [class_of KEdition; class_of KCloudBioLinux].
Proof. repeat constructor. Qed.

(** C8: in BioNode and in Minimal, [rewrite_apt_keys] returns the pair of
    empty lists and [rewrite_apt_automation] the empty list, whatever they
    are given. *)
Theorem no_keys_no_answers (self : Self)
    (package_info standalone keyserver : list string) (w : World) :
  Forall (λ cls,
    m_rewrite_apt_keys cls self standalone keyserver w
      = (Returned ([], []), w)
    ∧ m_rewrite_apt_automation cls self package_info w = (Returned [], w))
    [class_of KBioNode; class_of KMinimal].
Proof. repeat constructor. Qed.

(** C4: [BioNode.rewrite_apt_preferences] drops its input and returns the
    same lines every time: a policy of four tiers, the release pin
    (priority 900) above stable (700), above testing (650), above
    bio-linux (400). *)
Theorem bionode_preferences (self : Self) (preferences : list string)
    (w : World) :
  BioNode.rewrite_apt_preferences self preferences w
    = (Returned pinning_policy, w)
  ∧ pin_tiers pinning_policy =
      [("release n=natty", 900%N); ("release a=stable", 700%N);
       ("release a=testing", 650%N); ("release a=bio-linux", 400%N)]
  ∧ StronglySorted (λ a b, (b < a)%N) (pin_tiers pinning_policy).*2.
Proof.
  assert (Ht : pin_tiers pinning_policy =
    [("release n=natty", 900%N); ("release a=stable", 700%N);
     ("release a=testing", 650%N); ("release a=bio-linux", 400%N)])
    by (vm_compute; reflexivity).
  split; [reflexivity|]. split; [exact Ht|].
  rewrite Ht. cbn [fmap list_fmap snd].
  repeat first [apply SSorted_nil | apply SSorted_cons
               | apply Forall_nil_2 | apply Forall_cons_2]; lia.
Qed.

(** ** The system upgrade *)

(** Every way [Minimal.apt_upgrade_system] can end. *)
Lemma minimal_upgrade (self : Self) (env : option Env) (w : World) :
  Minimal.apt_upgrade_system self env w =
    match env with
    | None => (Raised (AttributeError "NoneType" "logger"), w)
    | Some e =>
        match e !! "logger" with
        | None => (Raised (AttributeError "_AttributeDict" "logger"), w)
        | Some (VLogger shown) =>
            (Returned (), emit (LogDebug "Skipping forced system upgrade") w)
        | Some v => (Raised (AttributeError (type_name v) "debug"), w)
        end
    end.
Proof.
  unfold Minimal.apt_upgrade_system, mbind, M_bind, getattr_opt, getattr.
  destruct env as [e|]; [|reflexivity].
  destruct (e !! "logger") as [[| | |]|]; reflexivity.
Qed.

Lemma minimal_upgrade_no_remote (self : Self) (env : option Env) (w : World) :
  remote_calls (trace (Minimal.apt_upgrade_system self env w).2)
  = remote_calls (trace w).
Proof.
  rewrite minimal_upgrade.
  destruct env as [e|]; [|reflexivity].
  destruct (e !! "logger") as [[| | |]|]; try reflexivity.
  cbn [snd emit trace]. rewrite remote_calls_app. cbn. by rewrite app_nil_r.
Qed.

Lemma base_upgrade_one_call (self : Self) (env : option Env) (w : World) :
  sudo_available env →
  remote_calls (trace (Edition.apt_upgrade_system self env w).2)
  = remote_calls (trace w)
    ++ [(if env_truthy env then EnvSafeSudo else GlobalSudo, upgrade_cmd)].
Proof.
  intros [Hfalse | (e & shown & -> & Hsudo)].
  - unfold Edition.apt_upgrade_system. rewrite Hfalse.
    unfold mbind at 1, M_bind at 1, mret, M_ret. cbv beta iota.
    apply remote_exec_calls.
  - unfold Edition.apt_upgrade_system.
    destruct (env_truthy (Some e)) eqn:Htruthy.
    + unfold mbind, M_bind, mret, M_ret, getattr_opt, getattr.
      rewrite Hsudo. cbv beta iota. cbn [py_call].
      apply remote_exec_calls.
    + unfold mbind at 1, M_bind at 1, mret, M_ret. cbv beta iota.
      apply remote_exec_calls.
Qed.

(** C6: [Minimal.apt_upgrade_system] runs no privileged command, whatever
    it is called with.  BioNode has the base edition's
    [apt_upgrade_system], and that one, called so that it finds its sudo
    function ([env] left out or empty, or carrying [safe_sudo]), runs one
    privileged command and no more: the forced upgrade of the whole
    system, also when the host fails to run it. *)
Theorem upgrade_remote_calls (self : Self) (env : option Env) (w : World) :
  remote_calls (trace (m_apt_upgrade_system (class_of KMinimal) self env w).2)
    = remote_calls (trace w)
  ∧ m_apt_upgrade_system (class_of KBioNode)
    = m_apt_upgrade_system (class_of KEdition)
  ∧ (sudo_available env →
     Forall (λ cls,
       remote_calls (trace (m_apt_upgrade_system cls self env w).2)
       = remote_calls (trace w)
         ++ [(if env_truthy env then EnvSafeSudo else GlobalSudo,
              "apt-get -y --force-yes upgrade")])
       [class_of KEdition; class_of KBioNode]).
Proof.
  split; [apply minimal_upgrade_no_remote|]. split; [reflexivity|].
  intros Hav. repeat apply Forall_cons_2; [| |apply Forall_nil_2];
    by apply base_upgrade_one_call.
Qed.

Lemma upgrade_remote_calls_witness :
  remote_calls (trace (m_apt_upgrade_system (class_of KBioNode)
                         (node_on debian_env) None
                         (world_with debian_env [])).2)
    = [(GlobalSudo, "apt-get -y --force-yes upgrade")]
  ∧ remote_calls (trace (m_apt_upgrade_system (class_of KEdition)
                           (node_on debian_env) (Some debian_env)
                           (world_with debian_env [])).2)
    = [(EnvSafeSudo, "apt-get -y --force-yes upgrade")].
Proof.
  split.
  - assert (Hav : sudo_available None) by (left; reflexivity).
    pose proof (proj2 (proj2 (upgrade_remote_calls (node_on debian_env) None
                                (world_with debian_env []))) Hav) as Hall.
    apply Forall_cons_1 in Hall as [_ Hall].
    apply Forall_cons_1 in Hall as [Hnode _]. exact Hnode.
  - assert (Hav : sudo_available (Some debian_env)).
    { right. exists debian_env, "<function safe_sudo>".
      split; [reflexivity | vm_compute; reflexivity]. }
    pose proof (proj2 (proj2 (upgrade_remote_calls (node_on debian_env)
                                (Some debian_env)
                                (world_with debian_env []))) Hav) as Hall.
    apply Forall_cons_1 in Hall as [Hbase _]. exact Hbase.
Defined.

(** C10: called without [env], [Minimal.apt_upgrade_system] does not log
    and return: it raises on reading the attribute [logger] of [None],
    whatever the edition's own environment holds.  It returns exactly when
    the argument is an environment that carries a logger, and then all it
    does is log that the upgrade is skipped. *)
Theorem minimal_upgrade_needs_env (self : Self) (w : World) :
  Minimal.apt_upgrade_system self None w
    = (Raised (AttributeError "NoneType" "logger"), w)
  ∧ (∀ env, (Minimal.apt_upgrade_system self env w).1 = Returned () ↔
       ∃ e shown, env = Some e ∧ e !! "logger" = Some (VLogger shown))
  ∧ (∀ e shown, e !! "logger" = Some (VLogger shown) →
       Minimal.apt_upgrade_system self (Some e) w
       = (Returned (), emit (LogDebug "Skipping forced system upgrade") w)).
Proof.
  split; [reflexivity|]. split.
  - intros env. rewrite minimal_upgrade. split.
    + destruct env as [e|]; [|discriminate].
      destruct (e !! "logger") as [[| |shown|]|] eqn:He; try discriminate.
      intros _. by exists e, shown.
    + intros (e & shown & -> & ->). reflexivity.
  - intros e shown He. rewrite minimal_upgrade, He. reflexivity.
Qed.

Lemma minimal_upgrade_needs_env_witness :
  Minimal.apt_upgrade_system (node_on debian_env) None
    (world_with debian_env [])
    = (Raised (AttributeError "NoneType" "logger"), world_with debian_env [])
  ∧ Minimal.apt_upgrade_system (node_on debian_env) (Some debian_env)
      (world_with debian_env [])
    = (Returned (),
       emit (LogDebug "Skipping forced system upgrade")
         (world_with debian_env [])).
Proof.
  split.
  - exact (proj1 (minimal_upgrade_needs_env (node_on debian_env)
                    (world_with debian_env []))).
  - apply (proj2 (proj2 (minimal_upgrade_needs_env (node_on debian_env)
                           (world_with debian_env [])))
             debian_env "<logging.Logger>").
    vm_compute; reflexivity.
Defined.

(** ** Construction *)

Lemma edition_init (cls : EditionClass) (env : Env) (w : World) :
  Edition.init cls env w =
    match env !! "version" with
    | None => (Raised (AttributeError "_AttributeDict" "version"), w)
    | Some v =>
        let self := mkSelf "BioLinux base Edition" "biolinux" v env in
        match m_check_distribution cls self w with
        | (Returned _, w') => (Returned self, w')
        | (Raised e, w') => (Raised e, w')
        end
    end.
Proof.
  unfold Edition.init, mbind, M_bind, getattr, mret, M_ret.
  destruct (env !! "version") as [v|]; [|reflexivity]. cbv beta iota zeta.
  by destruct (m_check_distribution cls _ w) as [[[]|e] w'].
Qed.

(** C5: [__init__] of every edition sets the name, short name, version and
    environment and then calls [check_distribution] on the object, whose
    failure, if it had one, would be the failure of the construction (first
    part, for any override [chk] of the hook: it sees the base edition's
    name and short name, the subclass's own are assigned after it).  The
    hook of each of the four editions returns without doing anything, so a
    construction returns the edition, or fails on the missing [version] of
    the environment, and never with the [ValueError] of a distribution
    that does not fit. *)
Theorem construction_protocol (k : kind) (chk : Self → M unit) (env : Env)
    (w : World) :
  init_of k (with_check chk (class_of k)) env w =
    match env !! "version" with
    | None => (Raised (AttributeError "_AttributeDict" "version"), w)
    | Some v =>
        match chk (mkSelf "BioLinux base Edition" "biolinux" v env) w with
        | (Returned _, w') =>
            (Returned (mkSelf (display_name k) (short_key k) v env), w')
        | (Raised e, w') => (Raised e, w')
        end
    end
  ∧ (∀ self w', m_check_distribution (class_of k) self w' = (Returned (), w'))
  ∧ construct k env w =
      match env !! "version" with
      | None => (Raised (AttributeError "_AttributeDict" "version"), w)
      | Some v => (Returned (mkSelf (display_name k) (short_key k) v env), w)
      end
  ∧ (∀ msg, (construct k env w).1 ≠ Raised (ValueError msg)).
Proof.
  assert (Hinit : ∀ cls, init_of k cls env w =
    match env !! "version" with
    | None => (Raised (AttributeError "_AttributeDict" "version"), w)
    | Some v =>
        match m_check_distribution cls
                (mkSelf "BioLinux base Edition" "biolinux" v env) w with
        | (Returned _, w') =>
            (Returned (mkSelf (display_name k) (short_key k) v env), w')
        | (Raised e, w') => (Raised e, w')
        end
    end).
  { intros cls. destruct k; cbn [init_of display_name short_key];
      unfold CloudBioLinux.init, BioNode.init, Minimal.init;
      try (unfold mbind at 1, M_bind at 1); rewrite edition_init;
      destruct (env !! "version") as [v|]; try reflexivity;
      cbv zeta; by destruct (m_check_distribution cls _ w) as [[[]|e] w']. }
  assert (Hnoop : ∀ self w',
            m_check_distribution (class_of k) self w' = (Returned (), w'))
    by (intros self w'; by destruct k).
  assert (Hconstruct : construct k env w =
    match env !! "version" with
    | None => (Raised (AttributeError "_AttributeDict" "version"), w)
    | Some v => (Returned (mkSelf (display_name k) (short_key k) v env), w)
    end).
  { unfold construct. rewrite Hinit.
    destruct (env !! "version") as [v|]; [|reflexivity]. by rewrite Hnoop. }
  split; [apply Hinit|]. split; [exact Hnoop|]. split; [exact Hconstruct|].
  intros msg. rewrite Hconstruct.
  by destruct (env !! "version").
Qed.

(** ** Configured items *)

(** The loop on the list object is [add_missing] on its contents. *)
Lemma for_each_add_missing (items : loc) (to_add xs : list string)
    (w : World) :
  heap w !! items = Some xs →
  for_each to_add (λ x,
      present ← list_contains items x;
      if negb present then list_append items x else mret ()) w
  = (Returned (), set_heap (<[items := add_missing to_add xs]> (heap w)) w).
Proof.
  revert xs w. induction to_add as [|x to_add IH]; intros xs w Hxs.
  - cbn. by rewrite insert_id, set_heap_same.
  - cbn [for_each add_missing].
    unfold mbind at 1, M_bind at 1.
    unfold mbind at 1, M_bind at 1, list_contains at 1.
    unfold mbind at 1, M_bind at 1, read_list at 1. rewrite Hxs.
    unfold mret at 1, M_ret at 1. cbv beta iota.
    destruct (bool_decide (x ∈ xs)); cbn [negb]; cbv beta iota.
    + unfold mret at 1, M_ret at 1. by apply IH.
    + unfold list_append at 1. rewrite Hxs.
      rewrite (IH (xs ++ [x])); cbn [heap set_heap].
      * by rewrite insert_insert_eq.
      * apply lookup_insert_eq.
Qed.

Lemma cloudbiolinux_config_items (self : Self) (name : string) (items : loc)
    (xs : list string) (w : World) :
  heap w !! items = Some xs →
  CloudBioLinux.rewrite_config_items self name items w
  = (Returned items,
     set_heap (<[items := add_missing cloud_items xs]> (heap w)) w).
Proof.
  intros Hxs. unfold CloudBioLinux.rewrite_config_items.
  unfold mbind at 1, M_bind at 1.
  by rewrite (for_each_add_missing items _ xs w Hxs).
Qed.

Lemma occurrences_app (x : string) (xs ys : list string) :
  occurrences x (xs ++ ys) = occurrences x xs + occurrences x ys.
Proof. unfold occurrences. by rewrite filter_app, length_app. Qed.

Lemma occurrences_other (x y : string) : y ≠ x → occurrences x [y] = 0.
Proof. intros Hne. unfold occurrences. by rewrite filter_cons_False. Qed.

(** An entry the list holds already is never appended. *)
Lemma add_missing_occurrences (x : string) (to_add xs : list string) :
  x ∈ xs → occurrences x (add_missing to_add xs) = occurrences x xs.
Proof.
  revert xs. induction to_add as [|a to_add IH]; intros xs Hx; [reflexivity|].
  cbn [add_missing]. case_bool_decide as Ha; [by apply IH|].
  rewrite IH by (apply elem_of_app; by left).
  rewrite occurrences_app, occurrences_other; [lia|].
  intros ->. contradiction.
Qed.

Lemma filter_missing_snoc (a : string) (to_add xs : list string) :
  a ∉ to_add →
  filter (λ y, y ∉ xs ++ [a]) to_add = filter (λ y, y ∉ xs) to_add.
Proof.
  induction to_add as [|b to_add IH]; intros Ha; [reflexivity|].
  apply not_elem_of_cons in Ha as [Hab Ha].
  rewrite !filter_cons, IH by done.
  destruct (decide (b ∉ xs ++ [a])) as [H1|H1], (decide (b ∉ xs)) as [H2|H2];
    try reflexivity.
  - exfalso. apply H2. intros Hin. apply H1. apply elem_of_app. by left.
  - exfalso. apply H1. intros [Hin | Hin%list_elem_of_singleton]%elem_of_app;
      [contradiction | congruence].
Qed.

(** What is appended is what was missing, in the order of [to_add]. *)
Lemma add_missing_appends (to_add xs : list string) :
  NoDup to_add →
  add_missing to_add xs = xs ++ filter (λ y, y ∉ xs) to_add.
Proof.
  revert xs. induction to_add as [|a to_add IH]; intros xs Hnd.
  - cbn. by rewrite app_nil_r.
  - apply NoDup_cons in Hnd as [Ha Hnd]. cbn [add_missing].
    case_bool_decide as Hin.
    + rewrite IH, filter_cons_False by (done || by intros ?). done.
    + rewrite IH, filter_missing_snoc, filter_cons_True by done.
      by rewrite <- app_assoc.
Qed.

Lemma cloud_items_NoDup : NoDup cloud_items.
Proof.
  unfold cloud_items.
  repeat (apply NoDup_cons_2;
          [rewrite ?elem_of_cons, elem_of_nil; intros H; decompose [or] H;
             discriminate || done|]).
  apply NoDup_nil_2.
Qed.

(** C2, as the code has it: on an empty list, whatever the category name,
    [CloudBioLinux.rewrite_config_items] returns the list holding "galaxy",
    "galaxy_tools", "cloudman" in that order; an entry among these three
    that the list holds already is not appended again, so that it occurs
    in the result as often as it did in the input: once when it occurred
    once. *)
Theorem cloudbiolinux_ensures_items (self : Self) (name : string)
    (items : loc) (w : World) :
  (heap w !! items = Some [] →
   ∃ w', CloudBioLinux.rewrite_config_items self name items w
         = (Returned items, w')
         ∧ heap w' !! items = Some ["galaxy"; "galaxy_tools"; "cloudman"])
  ∧ (∀ xs x,
       heap w !! items = Some xs → x ∈ cloud_items → x ∈ xs →
       ∃ w' ys, CloudBioLinux.rewrite_config_items self name items w
                = (Returned items, w')
                ∧ heap w' !! items = Some ys
                ∧ occurrences x ys = occurrences x xs
                ∧ (occurrences x xs = 1 → occurrences x ys = 1)).
Proof.
  split.
  - intros Hxs. eexists. split; [by apply cloudbiolinux_config_items|].
    cbn [heap set_heap]. by rewrite lookup_insert_eq.
  - intros xs x Hxs _ Hx. eexists _, _.
    split; [by apply cloudbiolinux_config_items|].
    cbn [heap set_heap]. split; [apply lookup_insert_eq|].
    rewrite add_missing_occurrences by done. done.
Qed.

Lemma cloudbiolinux_ensures_items_witness :
  (∃ w', CloudBioLinux.rewrite_config_items (cloud_on debian_env) "packages"
           1%positive (world_with debian_env [])
         = (Returned 1%positive, w')
         ∧ heap w' !! 1%positive = Some ["galaxy"; "galaxy_tools"; "cloudman"])
  ∧ (∃ w' ys, CloudBioLinux.rewrite_config_items (cloud_on debian_env)
                "packages" 1%positive
                (world_with debian_env ["emacs"; "galaxy"])
              = (Returned 1%positive, w')
              ∧ heap w' !! 1%positive = Some ys
              ∧ occurrences "galaxy" ys = occurrences "galaxy" ["emacs"; "galaxy"]
              ∧ (occurrences "galaxy" ["emacs"; "galaxy"] = 1 →
                 occurrences "galaxy" ys = 1)).
Proof.
  split.
  - apply (proj1 (cloudbiolinux_ensures_items (cloud_on debian_env) "packages"
                    1%positive (world_with debian_env []))).
    vm_compute; reflexivity.
  - apply (proj2 (cloudbiolinux_ensures_items (cloud_on debian_env) "packages"
                    1%positive (world_with debian_env ["emacs"; "galaxy"]))
             ["emacs"; "galaxy"] "galaxy").
    + vm_compute; reflexivity.
    + unfold cloud_items. apply elem_of_cons. by left.
    + apply elem_of_cons. right. apply elem_of_cons. by left.
Defined.

(** C2, as the claim has it, fails on a list that holds "galaxy" twice: the
    result holds it twice, not once. *)
Lemma cloudbiolinux_keeps_duplicates :
  heap (world_with debian_env ["galaxy"; "galaxy"]) !! 1%positive
    = Some ["galaxy"; "galaxy"]
  ∧ "galaxy" ∈ ["galaxy"; "galaxy"]
  ∧ ∃ w', CloudBioLinux.rewrite_config_items (cloud_on debian_env) "packages"
            1%positive (world_with debian_env ["galaxy"; "galaxy"])
          = (Returned 1%positive, w')
          ∧ heap w' !! 1%positive
            = Some ["galaxy"; "galaxy"; "galaxy_tools"; "cloudman"]
          ∧ occurrences "galaxy"
              ["galaxy"; "galaxy"; "galaxy_tools"; "cloudman"] ≠ 1.
Proof.
  assert (Hxs : heap (world_with debian_env ["galaxy"; "galaxy"]) !! 1%positive
                = Some ["galaxy"; "galaxy"]) by (vm_compute; reflexivity).
  split; [exact Hxs|]. split; [apply elem_of_cons; by left|].
  eexists. split; [by apply cloudbiolinux_config_items|].
  split; [cbn [heap set_heap]; by rewrite lookup_insert_eq|].
  vm_compute. discriminate.
Qed.

(** C9: [CloudBioLinux.rewrite_config_items] works on the caller's list
    object.  When the list lacks one of the three entries, the hook returns
    the very location it was given, and the list there has grown by the
    missing entries, so it is no longer the list that was passed in; no
    other list object is touched. *)
Theorem cloudbiolinux_items_in_place (self : Self) (name : string)
    (items : loc) (xs : list string) (w : World) :
  heap w !! items = Some xs →
  (∃ x, x ∈ cloud_items ∧ x ∉ xs) →
  ∃ w', CloudBioLinux.rewrite_config_items self name items w
        = (Returned items, w')
        ∧ heap w' !! items = Some (xs ++ filter (λ x, x ∉ xs) cloud_items)
        ∧ heap w' !! items ≠ heap w !! items
        ∧ ∀ l, l ≠ items → heap w' !! l = heap w !! l.
Proof.
  intros Hxs (x & Hx & Hmissing).
  eexists. split; [by apply cloudbiolinux_config_items|].
  cbn [heap set_heap]. rewrite lookup_insert_eq, Hxs.
  rewrite add_missing_appends by apply cloud_items_NoDup.
  split; [reflexivity|]. split.
  - intros [= Heq]. rewrite <- (app_nil_r xs) in Heq at 2.
    apply app_inv_head in Heq.
    assert (Hin : x ∈ filter (λ y, y ∉ xs) cloud_items)
      by (by apply list_elem_of_filter).
    rewrite Heq in Hin. by apply not_elem_of_nil in Hin.
  - intros l Hl. by rewrite lookup_insert_ne.
Qed.

Lemma cloudbiolinux_items_in_place_witness :
  ∃ w', CloudBioLinux.rewrite_config_items (cloud_on debian_env) "packages"
          1%positive (world_with debian_env ["emacs"; "galaxy"])
        = (Returned 1%positive, w')
        ∧ heap w' !! 1%positive
          = Some (["emacs"; "galaxy"]
                  ++ filter (λ x, x ∉ ["emacs"; "galaxy"]) cloud_items)
        ∧ heap w' !! 1%positive
          ≠ heap (world_with debian_env ["emacs"; "galaxy"]) !! 1%positive
        ∧ ∀ l, l ≠ 1%positive →
            heap w' !! l
            = heap (world_with debian_env ["emacs"; "galaxy"]) !! l.
Proof.
  apply (cloudbiolinux_items_in_place (cloud_on debian_env) "packages"
           1%positive ["emacs"; "galaxy"]
           (world_with debian_env ["emacs"; "galaxy"])).
  - vm_compute; reflexivity.
  - exists "cloudman". split.
    + unfold cloud_items. do 2 (apply elem_of_cons; right).
      apply elem_of_cons. by left.
    + intros [H | [H | H%not_elem_of_nil]%elem_of_cons]%elem_of_cons;
        [discriminate | discriminate | done].
Defined.

(** ** The keyring of BioNode *)

Lemma bionode_minimal_items (self : Self) (items : loc) (xs : list string)
    (w : World) :
  heap w !! items = Some xs →
  BioNode.rewrite_config_items self "minimal" items w
  = (Returned (fresh (dom (heap w))),
     set_heap (<[fresh (dom (heap w)) := xs ++ ["bio-linux-keyring"]]> (heap w))
       w).
Proof.
  intros Hxs. unfold BioNode.rewrite_config_items.
  change (bool_decide ("minimal" = "minimal")) with true. cbv beta iota.
  unfold mbind, M_bind, read_list. rewrite Hxs. reflexivity.
Qed.

Lemma fresh_not_allocated (h : gmap loc (list string)) :
  h !! fresh (dom h) = None.
Proof. apply not_elem_of_dom, is_fresh. Qed.

(** C7: for the category "minimal" and a list holding "x",
    [BioNode.rewrite_config_items] returns a list holding "x" and
    "bio-linux-keyring" (a new list object: the caller's is as it was); for
    any other category name it returns the list it was given, unchanged,
    whatever it holds. *)
Theorem bionode_adds_keyring (self : Self) (items : loc) (w : World) :
  (heap w !! items = Some ["x"] →
   ∃ out w', BioNode.rewrite_config_items self "minimal" items w
             = (Returned out, w')
             ∧ heap w' !! out = Some ["x"; "bio-linux-keyring"]
             ∧ heap w' !! items = Some ["x"])
  ∧ (∀ name, name ≠ "minimal" →
       BioNode.rewrite_config_items self name items w = (Returned items, w)).
Proof.
  split.
  - intros Hxs. eexists _, _.
    split; [by apply bionode_minimal_items|]. cbn [heap set_heap].
    split; [by rewrite lookup_insert_eq|].
    rewrite lookup_insert_ne; [done|].
    intros Heq. pose proof (fresh_not_allocated (heap w)) as Hfresh.
    rewrite Heq in Hfresh. congruence.
  - intros name Hne. unfold BioNode.rewrite_config_items.
    by rewrite bool_decide_eq_false_2.
Qed.

Lemma bionode_adds_keyring_witness :
  (∃ out w', BioNode.rewrite_config_items (node_on debian_env) "minimal"
               1%positive (world_with debian_env ["x"])
             = (Returned out, w')
             ∧ heap w' !! out = Some ["x"; "bio-linux-keyring"]
             ∧ heap w' !! 1%positive = Some ["x"])
  ∧ BioNode.rewrite_config_items (node_on debian_env) "packages" 1%positive
      (world_with debian_env ["x"])
    = (Returned 1%positive, world_with debian_env ["x"]).
Proof.
  split.
  - apply (proj1 (bionode_adds_keyring (node_on debian_env) 1%positive
                    (world_with debian_env ["x"]))).
    vm_compute; reflexivity.
  - apply (proj2 (bionode_adds_keyring (node_on debian_env) 1%positive
                    (world_with debian_env ["x"])) "packages").
    discriminate.
Defined.

(** * Further properties of the hooks *)

(** ** Configured items, continued *)

Lemma add_missing_keeps (x : string) (to_add xs : list string) :
  x ∈ xs → x ∈ add_missing to_add xs.
Proof.
  revert xs. induction to_add as [|a to_add IH]; intros xs Hx; [done|].
  cbn [add_missing]. case_bool_decide; apply IH; [done|].
  apply elem_of_app. by left.
Qed.

Lemma add_missing_ensures (x : string) (to_add xs : list string) :
  x ∈ to_add → x ∈ add_missing to_add xs.
Proof.
  revert xs. induction to_add as [|a to_add IH]; intros xs Hx.
  - by apply elem_of_nil in Hx.
  - cbn [add_missing]. apply elem_of_cons in Hx as [-> | Hx]; [|by apply IH].
    apply add_missing_keeps. case_bool_decide; [done|].
    apply elem_of_app. right. by apply list_elem_of_singleton.
Qed.

Lemma add_missing_nothing (to_add xs : list string) :
  (∀ x, x ∈ to_add → x ∈ xs) → add_missing to_add xs = xs.
Proof.
  induction to_add as [|a to_add IH]; intros Hall; [done|].
  cbn [add_missing]. rewrite bool_decide_eq_true_2.
  - apply IH. intros x Hx. apply Hall. apply elem_of_cons. by right.
  - apply Hall. apply elem_of_cons. by left.
Qed.

(** A list that has the three entries is left alone, and so is the rest
    of the world. *)
Lemma cloudbiolinux_config_items_done (self : Self) (name : string)
    (items : loc) (xs : list string) (w : World) :
  heap w !! items = Some xs →
  (∀ x, x ∈ cloud_items → x ∈ xs) →
  CloudBioLinux.rewrite_config_items self name items w = (Returned items, w).
Proof.
  intros Hxs Hall.
  rewrite (cloudbiolinux_config_items self name items xs w Hxs).
  by rewrite add_missing_nothing, insert_id, set_heap_same.
Qed.

(** X1: [CloudBioLinux.rewrite_config_items] is idempotent: a second call
    on the list the first call worked on, under whatever category name,
    returns the same list and changes nothing at all. *)
Theorem cloudbiolinux_items_idempotent (self : Self) (name name' : string)
    (items : loc) (xs : list string) (w : World) :
  heap w !! items = Some xs →
  ∃ w1, CloudBioLinux.rewrite_config_items self name items w
          = (Returned items, w1)
        ∧ CloudBioLinux.rewrite_config_items self name' items w1
          = (Returned items, w1).
Proof.
  intros Hxs. eexists. split; [by apply cloudbiolinux_config_items|].
  apply cloudbiolinux_config_items_done with (xs := add_missing cloud_items xs).
  - cbn [heap set_heap]. apply lookup_insert_eq.
  - intros x Hx. by apply add_missing_ensures.
Qed.

Lemma cloudbiolinux_items_idempotent_witness :
  ∃ w1, CloudBioLinux.rewrite_config_items (cloud_on debian_env) "packages"
          1%positive (world_with debian_env ["emacs"; "cloudman"])
        = (Returned 1%positive, w1)
        ∧ CloudBioLinux.rewrite_config_items (cloud_on debian_env) "python"
            1%positive w1
          = (Returned 1%positive, w1).
Proof.
  apply (cloudbiolinux_items_idempotent (cloud_on debian_env) "packages"
           "python" 1%positive ["emacs"; "cloudman"]
           (world_with debian_env ["emacs"; "cloudman"])).
  vm_compute; reflexivity.
Defined.

(** X2: after [CloudBioLinux.rewrite_config_items] the list holds
    "galaxy", "galaxy_tools" and "cloudman", whatever it held before.  Its
    old entries are all there, in their order and at the front; what
    follows them are exactly the entries of the three that were missing,
    each once.  Nothing is logged or run, and no other list is touched. *)
Theorem cloudbiolinux_items_postcondition (self : Self) (name : string)
    (items : loc) (xs : list string) (w : World) :
  heap w !! items = Some xs →
  ∃ w' added,
    CloudBioLinux.rewrite_config_items self name items w = (Returned items, w')
    ∧ heap w' !! items = Some (xs ++ added)
    ∧ (∀ x, x ∈ cloud_items → x ∈ xs ++ added)
    ∧ (∀ x, x ∈ added ↔ x ∈ cloud_items ∧ x ∉ xs)
    ∧ NoDup added
    ∧ trace w' = trace w
    ∧ (∀ l, l ≠ items → heap w' !! l = heap w !! l).
Proof.
  intros Hxs.
  exists (set_heap (<[items := add_missing cloud_items xs]> (heap w)) w),
    (filter (λ y, y ∉ xs) cloud_items).
  split; [by apply cloudbiolinux_config_items|].
  cbn [heap set_heap trace]. rewrite lookup_insert_eq.
  rewrite <- add_missing_appends by apply cloud_items_NoDup.
  split; [done|]. split; [intros x Hx; by apply add_missing_ensures|].
  split; [intros x; rewrite list_elem_of_filter; tauto|].
  split; [apply NoDup_filter, cloud_items_NoDup|].
  split; [done|]. intros l Hl. by rewrite lookup_insert_ne.
Qed.

Lemma cloudbiolinux_items_postcondition_witness :
  ∃ w' added,
    CloudBioLinux.rewrite_config_items (cloud_on debian_env) "packages"
      1%positive (world_with debian_env ["cloudman"; "emacs"])
    = (Returned 1%positive, w')
    ∧ heap w' !! 1%positive = Some (["cloudman"; "emacs"] ++ added)
    ∧ (∀ x, x ∈ cloud_items → x ∈ ["cloudman"; "emacs"] ++ added)
    ∧ (∀ x, x ∈ added ↔ x ∈ cloud_items ∧ x ∉ ["cloudman"; "emacs"])
    ∧ NoDup added
    ∧ trace w' = trace (world_with debian_env ["cloudman"; "emacs"])
    ∧ (∀ l, l ≠ 1%positive →
         heap w' !! l
         = heap (world_with debian_env ["cloudman"; "emacs"]) !! l).
Proof.
  apply (cloudbiolinux_items_postcondition (cloud_on debian_env) "packages"
           1%positive ["cloudman"; "emacs"]
           (world_with debian_env ["cloudman"; "emacs"])).
  vm_compute; reflexivity.
Defined.

(** X3: in every edition and for every category name,
    [rewrite_config_items] returns a list that starts with the entries it
    was given: no edition removes or reorders a configured item.  Only
    CloudBioLinux changes the caller's list object, only BioNode returns
    another object than the one it was given, and none logs or runs
    anything. *)
Theorem config_items_keep_input (k : kind) (self : Self) (name : string)
    (items : loc) (xs : list string) (w : World) :
  heap w !! items = Some xs →
  ∃ out w' ys,
    m_rewrite_config_items (class_of k) self name items w = (Returned out, w')
    ∧ heap w' !! out = Some ys
    ∧ xs `prefix_of` ys
    ∧ (k ≠ KCloudBioLinux → heap w' !! items = Some xs)
    ∧ (k ≠ KBioNode → out = items)
    ∧ trace w' = trace w.
Proof.
  intros Hxs. destruct k; cbn [class_of m_rewrite_config_items Edition.cls
    CloudBioLinux.cls BioNode.cls Minimal.cls].
  - exists items, w, xs. by repeat split.
  - eexists _, _, _. split; [by apply cloudbiolinux_config_items|].
    cbn [heap set_heap trace]. split; [apply lookup_insert_eq|].
    split; [|done].
    rewrite add_missing_appends by apply cloud_items_NoDup. by eexists.
  - destruct (decide (name = "minimal")) as [-> | Hne].
    + eexists _, _, _. split; [by apply bionode_minimal_items|].
      cbn [heap set_heap trace]. split; [apply lookup_insert_eq|].
      split; [by eexists|]. split; [|done]. intros _.
      rewrite lookup_insert_ne; [done|]. intros Heq.
      pose proof (fresh_not_allocated (heap w)) as Hfresh.
      rewrite Heq in Hfresh. congruence.
    + exists items, w, xs. split.
      * unfold BioNode.rewrite_config_items. by rewrite bool_decide_eq_false_2.
      * by repeat split.
  - exists items, w, xs. by repeat split.
Qed.

Lemma config_items_keep_input_witness :
  ∃ out w' ys,
    m_rewrite_config_items (class_of KBioNode) (node_on debian_env) "minimal"
      1%positive (world_with debian_env ["ssh"; "vim"])
    = (Returned out, w')
    ∧ heap w' !! out = Some ys
    ∧ ["ssh"; "vim"] `prefix_of` ys
    ∧ (KBioNode ≠ KCloudBioLinux → heap w' !! 1%positive = Some ["ssh"; "vim"])
    ∧ (KBioNode ≠ KBioNode → out = 1%positive)
    ∧ trace w' = trace (world_with debian_env ["ssh"; "vim"]).
Proof.
  apply (config_items_keep_input KBioNode (node_on debian_env) "minimal"
           1%positive ["ssh"; "vim"] (world_with debian_env ["ssh"; "vim"])).
  vm_compute; reflexivity.
Defined.

(** X4: [BioNode.rewrite_config_items] has no guard against an entry that
    is there already.  Given its own result for the category "minimal",
    it appends the keyring a second time; each call makes a list object of
    its own, and the list the first call was given stays as it was. *)
Theorem bionode_keyring_not_guarded (self : Self) (items : loc)
    (xs : list string) (w : World) :
  heap w !! items = Some xs →
  ∃ out1 w1 out2 w2,
    BioNode.rewrite_config_items self "minimal" items w = (Returned out1, w1)
    ∧ BioNode.rewrite_config_items self "minimal" out1 w1 = (Returned out2, w2)
    ∧ heap w2 !! out2
      = Some (xs ++ ["bio-linux-keyring"; "bio-linux-keyring"])
    ∧ heap w2 !! out1 = Some (xs ++ ["bio-linux-keyring"])
    ∧ heap w2 !! items = Some xs
    ∧ out1 ≠ items ∧ out2 ≠ out1 ∧ out2 ≠ items.
Proof.
  intros Hxs.
  set (out1 := fresh (dom (heap w))).
  set (h1 := <[out1 := xs ++ ["bio-linux-keyring"]]> (heap w)).
  set (out2 := fresh (dom h1)).
  assert (H1 : heap w !! out1 = None) by apply fresh_not_allocated.
  assert (H2 : h1 !! out2 = None) by apply fresh_not_allocated.
  assert (Hne1 : out1 ≠ items) by (intros Heq; rewrite Heq in H1; congruence).
  assert (Hne2 : out2 ≠ out1).
  { intros Heq. rewrite Heq in H2. unfold h1 in H2.
    by rewrite lookup_insert_eq in H2. }
  assert (Hne3 : out2 ≠ items).
  { intros Heq. rewrite Heq in H2. unfold h1 in H2.
    rewrite lookup_insert_ne in H2 by done. congruence. }
  exists out1, (set_heap h1 w), out2,
    (set_heap (<[out2 := (xs ++ ["bio-linux-keyring"])
                         ++ ["bio-linux-keyring"]]> h1)
       (set_heap h1 w)).
  split; [by apply bionode_minimal_items|].
  split.
  { apply (bionode_minimal_items self out1 (xs ++ ["bio-linux-keyring"])
             (set_heap h1 w)).
    cbn [heap set_heap]. apply lookup_insert_eq. }
  cbn [heap set_heap].
  split; [by rewrite lookup_insert_eq, <- app_assoc|].
  split; [rewrite lookup_insert_ne by done; apply lookup_insert_eq|].
  split; [|done].
  rewrite lookup_insert_ne by done. unfold h1. by rewrite lookup_insert_ne.
Qed.

Lemma bionode_keyring_not_guarded_witness :
  ∃ out1 w1 out2 w2,
    BioNode.rewrite_config_items (node_on debian_env) "minimal" 1%positive
      (world_with debian_env ["x"])
    = (Returned out1, w1)
    ∧ BioNode.rewrite_config_items (node_on debian_env) "minimal" out1 w1
      = (Returned out2, w2)
    ∧ heap w2 !! out2
      = Some (["x"] ++ ["bio-linux-keyring"; "bio-linux-keyring"])
    ∧ heap w2 !! out1 = Some (["x"] ++ ["bio-linux-keyring"])
    ∧ heap w2 !! 1%positive = Some ["x"]
    ∧ out1 ≠ 1%positive ∧ out2 ≠ out1 ∧ out2 ≠ 1%positive.
Proof.
  apply (bionode_keyring_not_guarded (node_on debian_env) 1%positive ["x"]
           (world_with debian_env ["x"])).
  vm_compute; reflexivity.
Defined.

(** ** The package source list of BioNode, continued *)

(** Every way [BioNode.rewrite_apt_sources_list] can end. *)
Lemma bionode_sources_cases (self : Self) (sources : list string) (w : World) :
  BioNode.rewrite_apt_sources_list self sources w =
    match env self !! "logger" with
    | None => (Raised (AttributeError "_AttributeDict" "logger"), w)
    | Some (VLogger _) =>
        match env self !! "distribution" with
        | None =>
            (Raised (AttributeError "_AttributeDict" "distribution"),
             emit sources_log w)
        | Some dv =>
            if py_in_strs dv ["debian"] then
              match fabric_env w !! "dist_name" with
              | None =>
                  (Raised (AttributeError "_AttributeDict" "dist_name"),
                   emit sources_log w)
              | Some dn =>
                  (Returned (debian_entries (chosen_mirror (fabric_env w)) dn
                             ++ [bio_linux_repo]),
                   emit sources_log w)
              end
            else (Returned [bio_linux_repo], emit sources_log w)
        end
    | Some lg => (Raised (AttributeError (type_name lg) "debug"), w)
    end.
Proof.
  unfold BioNode.rewrite_apt_sources_list, mbind, M_bind, getattr,
    get_fabric_env, bound_debug, mret, M_ret, raise.
  destruct (env self !! "logger") as [[| |shown|]|]; try reflexivity.
  cbv beta iota. unfold logger_debug, log_event.
  destruct (env self !! "distribution") as [dv|]; [|reflexivity].
  cbv beta iota. destruct (py_in_strs dv ["debian"]); [|reflexivity].
  cbv beta iota. cbn [fabric_env emit]. unfold chosen_mirror, env_get.
  destruct (fabric_env w !! "debian_repository") as [v|] eqn:Hrepo;
    cbn [default from_option id].
  - destruct (truthy v); cbn [negb]; cbv beta iota.
    + destruct (fabric_env w !! "dist_name") as [dn|]; [|reflexivity].
      cbv beta iota. unfold format. cbn. reflexivity.
    + destruct (fabric_env w !! "dist_name") as [dn|]; [|reflexivity].
      cbv beta iota. unfold format. cbn. reflexivity.
  - cbn [truthy negb]. cbv beta iota.
    destruct (fabric_env w !! "dist_name") as [dn|]; [|reflexivity].
    cbv beta iota. unfold format. cbn. reflexivity.
Qed.

Lemma py_in_debian (dv : pyval) :
  py_in_strs dv ["debian"] = true ↔ dv = VStr "debian".
Proof.
  destruct dv as [|s| |]; cbn; try (split; [discriminate|congruence]).
  rewrite bool_decide_eq_true, list_elem_of_singleton.
  split; congruence.
Qed.

(** X5: on a Debian host, a [debian_repository] set in the global
    environment to something true replaces the US mirror in all three
    Debian entries of [BioNode.rewrite_apt_sources_list], copied as it is;
    one set to [None] or to the empty string counts as not set.  The dist
    name goes into the first two entries, the third names testing, and the
    bio-linux repository follows. *)
Theorem bionode_mirror_choice (self : Self) (sources : list string)
    (w : World) (shown : string) (dn v : pyval) :
  env self !! "logger" = Some (VLogger shown) →
  env self !! "distribution" = Some (VStr "debian") →
  fabric_env w !! "dist_name" = Some dn →
  fabric_env w !! "debian_repository" = Some v →
  (BioNode.rewrite_apt_sources_list self sources w).1 =
    Returned (debian_entries
                (if truthy v then v else VStr "http://ftp.us.debian.org/debian/")
                dn ++ [bio_linux_repo]).
Proof.
  intros Hlg Hdist Hdn Hrepo.
  rewrite bionode_sources_cases, Hlg, Hdist.
  change (py_in_strs (VStr "debian") ["debian"]) with true. cbv beta iota.
  rewrite Hdn. unfold chosen_mirror, env_get. rewrite Hrepo.
  cbn [default from_option id fst]. reflexivity.
Qed.

Lemma bionode_mirror_choice_witness :
  (BioNode.rewrite_apt_sources_list (node_on mirror_env) []
     (world_with mirror_env [])).1
  = Returned
      ["deb http://ftp.de.debian.org/debian/ squeeze main contrib non-free";
       "deb http://ftp.de.debian.org/debian/ squeeze-updates main contrib non-free";
       "deb http://ftp.de.debian.org/debian/ testing main contrib non-free";
       "deb http://nebc.nerc.ac.uk/bio-linux/ unstable bio-linux"].
Proof.
  apply (bionode_mirror_choice (node_on mirror_env) []
           (world_with mirror_env []) "<logging.Logger>" (VStr "squeeze")
           (VStr "http://ftp.de.debian.org/debian/"));
    vm_compute; reflexivity.
Defined.

(** X6: whenever [BioNode.rewrite_apt_sources_list] returns, whatever the
    two environments hold, the list ends with the bio-linux repository and
    has four entries if the distribution of the edition's environment is
    the string "debian" and one entry if it is anything else; all the call
    has done is log one line. *)
Theorem bionode_sources_shape (self : Self) (sources out : list string)
    (w w' : World) :
  BioNode.rewrite_apt_sources_list self sources w = (Returned out, w') →
  last out = Some bio_linux_repo
  ∧ length out
    = (if bool_decide (env self !! "distribution" = Some (VStr "debian"))
       then 4 else 1)
  ∧ w' = emit sources_log w.
Proof.
  rewrite bionode_sources_cases.
  destruct (env self !! "logger") as [[| |shown|]|]; try discriminate.
  destruct (env self !! "distribution") as [dv|]; [|discriminate].
  destruct (py_in_strs dv ["debian"]) eqn:Hin.
  - apply py_in_debian in Hin as ->.
    destruct (fabric_env w !! "dist_name") as [dn|]; [|discriminate].
    intros [= <- <-]. rewrite bool_decide_eq_true_2 by done. done.
  - intros [= <- <-]. rewrite bool_decide_eq_false_2; [done|].
    intros [= ->]. by compute in Hin.
Qed.

Lemma bionode_sources_shape_witness :
  last (debian_entries (VStr "http://ftp.de.debian.org/debian/")
          (VStr "squeeze") ++ [bio_linux_repo])
    = Some bio_linux_repo
  ∧ length (debian_entries (VStr "http://ftp.de.debian.org/debian/")
              (VStr "squeeze") ++ [bio_linux_repo])
    = (if bool_decide (env (node_on mirror_env) !! "distribution"
                       = Some (VStr "debian"))
       then 4 else 1)
  ∧ emit sources_log (world_with mirror_env [])
    = emit sources_log (world_with mirror_env []).
Proof.
  apply (bionode_sources_shape (node_on mirror_env) ["deb cdrom: lenny main"]
           (debian_entries (VStr "http://ftp.de.debian.org/debian/")
              (VStr "squeeze") ++ [bio_linux_repo])
           (world_with mirror_env [])
           (emit sources_log (world_with mirror_env []))).
  vm_compute; reflexivity.
Defined.

(** X7: [BioNode.rewrite_apt_sources_list] returns a list exactly when the
    edition's environment has a logger and a distribution and, if that
    distribution is "debian", the global environment has a dist name; in
    every other case it raises. *)
Theorem bionode_sources_returns_iff (self : Self) (sources : list string)
    (w : World) :
  (∃ out, (BioNode.rewrite_apt_sources_list self sources w).1 = Returned out)
  ↔ (∃ shown, env self !! "logger" = Some (VLogger shown))
    ∧ is_Some (env self !! "distribution")
    ∧ (env self !! "distribution" = Some (VStr "debian") →
       is_Some (fabric_env w !! "dist_name")).
Proof.
  rewrite bionode_sources_cases. split.
  - intros [out Hout].
    destruct (env self !! "logger") as [[| |shown|]|]; try discriminate.
    split; [by eexists|].
    destruct (env self !! "distribution") as [dv|]; [|discriminate].
    split; [by eexists|]. intros [= ->].
    change (py_in_strs (VStr "debian") ["debian"]) with true in Hout.
    cbv beta iota in Hout.
    destruct (fabric_env w !! "dist_name"); [by eexists | discriminate].
  - intros ([shown ->] & [dv Hdv] & Hdn). rewrite Hdv.
    destruct (py_in_strs dv ["debian"]) eqn:Hin; [|by eexists].
    apply py_in_debian in Hin as ->.
    destruct (Hdn Hdv) as [dn ->]. by eexists.
Qed.

(** X8: whether it returns or raises, [BioNode.rewrite_apt_sources_list]
    runs no command on the host, touches no list object and leaves the
    global environment alone; the trace grows by its one log line or not
    at all. *)
Theorem bionode_sources_frame (self : Self) (sources : list string)
    (w : World) :
  remote_calls (trace (BioNode.rewrite_apt_sources_list self sources w).2)
    = remote_calls (trace w)
  ∧ heap (BioNode.rewrite_apt_sources_list self sources w).2 = heap w
  ∧ fabric_env (BioNode.rewrite_apt_sources_list self sources w).2
    = fabric_env w
  ∧ (trace (BioNode.rewrite_apt_sources_list self sources w).2 = trace w
     ∨ trace (BioNode.rewrite_apt_sources_list self sources w).2
       = trace w ++ [sources_log]).
Proof.
  rewrite bionode_sources_cases.
  assert (Hemit : remote_calls (trace (emit sources_log w))
                  = remote_calls (trace w)).
  { cbn [trace emit]. rewrite remote_calls_app. cbn. by rewrite app_nil_r. }
  destruct (env self !! "logger") as [[| |shown|]|]; try by auto.
  destruct (env self !! "distribution") as [dv|]; [|by auto].
  destruct (py_in_strs dv ["debian"]); [|by auto].
  destruct (fabric_env w !! "dist_name"); by auto.
Qed.

(** X9: on a host whose distribution is not "debian", BioNode returns the
    source list that Minimal returns for every input and environment: the
    bio-linux repository alone. *)
Theorem minimal_sources_as_bionode (self self' : Self)
    (sources sources' : list string) (w w0 : World) (shown : string)
    (dv : pyval) :
  env self !! "logger" = Some (VLogger shown) →
  env self !! "distribution" = Some dv →
  dv ≠ VStr "debian" →
  (BioNode.rewrite_apt_sources_list self sources w).1
  = (Minimal.rewrite_apt_sources_list self' sources' w0).1
  ∧ Minimal.rewrite_apt_sources_list self' sources' w0
    = (Returned [bio_linux_repo], w0).
Proof.
  intros Hlg Hdist Hne.
  by rewrite (sources_elsewhere self sources w shown dv Hlg Hdist Hne).
Qed.

Lemma minimal_sources_as_bionode_witness :
  (BioNode.rewrite_apt_sources_list (node_on ubuntu_env) ["deb a b c"]
     (world_with ubuntu_env [])).1
  = (Minimal.rewrite_apt_sources_list (node_on debian_env) []
       (world_with debian_env ["x"])).1
  ∧ Minimal.rewrite_apt_sources_list (node_on debian_env) []
      (world_with debian_env ["x"])
    = (Returned [bio_linux_repo], world_with debian_env ["x"]).
Proof.
  apply (minimal_sources_as_bionode (node_on ubuntu_env) (node_on debian_env)
           ["deb a b c"] [] (world_with ubuntu_env [])
           (world_with debian_env ["x"]) "<logging.Logger>" (VStr "ubuntu"));
    [vm_compute; reflexivity | vm_compute; reflexivity | discriminate].
Defined.

(** ** Clearing the package sources *)

Lemma append_empty (s : string) : s +:+ "" = s.
Proof.
  induction s as [|c s IH]; [done|].
  change (String c (s +:+ "") = String c s). by rewrite IH.
Qed.

Lemma percent_clearing (f : pyval) :
  percent "Clearing %s" f = "Clearing " +:+ py_str f.
Proof.
  change (percent "Clearing %s" f) with ("Clearing " +:+ (py_str f +:+ "")).
  by rewrite append_empty.
Qed.

Lemma percent_clear_cmd (f : pyval) :
  percent "cat /dev/null > %s" f = clear_cmd f.
Proof.
  change (percent "cat /dev/null > %s" f)
    with ("cat /dev/null > " +:+ (py_str f +:+ "")).
  by rewrite append_empty.
Qed.

(** Every way [BioNode.check_packages_source] can end. *)
Lemma bionode_check_packages_source_cases (self : Self) (w : World) :
  BioNode.check_packages_source self w =
    match env self !! "logger" with
    | None => (Raised (AttributeError "_AttributeDict" "logger"), w)
    | Some (VLogger _) =>
        match env self !! "sources_file" with
        | None => (Raised (AttributeError "_AttributeDict" "sources_file"), w)
        | Some f =>
            let w' := emit (RemoteExec GlobalSudo (clear_cmd f))
                        (emit (LogDebug ("Clearing " +:+ py_str f)) w) in
            if remote_ok w (clear_cmd f) then (Returned (), w')
            else (Raised (RemoteFailure (clear_cmd f)), w')
        end
    | Some lg => (Raised (AttributeError (type_name lg) "debug"), w)
    end.
Proof.
  unfold BioNode.check_packages_source, mbind, M_bind, getattr, bound_debug,
    mret, M_ret, raise.
  destruct (env self !! "logger") as [[| |shown|]|]; try reflexivity.
  cbv beta iota.
  destruct (env self !! "sources_file") as [f|]; [|reflexivity].
  cbv beta iota. unfold logger_debug, log_event, sudo, remote_exec, mbind,
    M_bind, log_event, host_runs. cbn [remote_ok emit].
  rewrite percent_clearing, percent_clear_cmd.
  by destruct (remote_ok w (clear_cmd f)).
Qed.

(** X10: with a logger and a [sources_file] in the edition's environment,
    [BioNode.check_packages_source] logs "Clearing <file>" and then runs,
    through the global [sudo], the one command "cat /dev/null > <file>",
    in this order and nothing else; it returns if the host runs the
    command and passes the failure of the host on if not. *)
Theorem bionode_clears_sources_file (self : Self) (w : World)
    (shown : string) (f : pyval) :
  env self !! "logger" = Some (VLogger shown) →
  env self !! "sources_file" = Some f →
  trace (BioNode.check_packages_source self w).2
    = trace w ++ [LogDebug ("Clearing " +:+ py_str f);
                  RemoteExec GlobalSudo ("cat /dev/null > " +:+ py_str f)]
  ∧ (BioNode.check_packages_source self w).1
    = (if remote_ok w ("cat /dev/null > " +:+ py_str f) then Returned ()
       else Raised (RemoteFailure ("cat /dev/null > " +:+ py_str f)))
  ∧ heap (BioNode.check_packages_source self w).2 = heap w.
Proof.
  intros Hlg Hf. rewrite bionode_check_packages_source_cases, Hlg, Hf.
  cbv zeta. fold (clear_cmd f).
  destruct (remote_ok w (clear_cmd f)); cbn [fst snd trace emit heap];
    by rewrite <- app_assoc.
Qed.

Lemma bionode_clears_sources_file_witness :
  trace (BioNode.check_packages_source (node_on apt_env)
           (world_with apt_env [])).2
    = [LogDebug "Clearing /etc/apt/sources.list";
       RemoteExec GlobalSudo "cat /dev/null > /etc/apt/sources.list"]
  ∧ (BioNode.check_packages_source (node_on apt_env)
       (world_with apt_env [])).1
    = Returned ()
  ∧ heap (BioNode.check_packages_source (node_on apt_env)
            (world_with apt_env [])).2
    = heap (world_with apt_env []).
Proof.
  apply (bionode_clears_sources_file (node_on apt_env) (world_with apt_env [])
           "<logging.Logger>" (VStr "/etc/apt/sources.list"));
    vm_compute; reflexivity.
Defined.

(** X11: without a logger, or without a [sources_file], in the edition's
    environment, [BioNode.check_packages_source] raises an
    [AttributeError] before it has logged or run anything: no file is
    cleared. *)
Theorem bionode_clear_needs_env (self : Self) (w : World) :
  (∀ shown, env self !! "logger" ≠ Some (VLogger shown))
  ∨ env self !! "sources_file" = None →
  ∃ owner attr,
    BioNode.check_packages_source self w
    = (Raised (AttributeError owner attr), w).
Proof.
  intros Hmissing. rewrite bionode_check_packages_source_cases.
  destruct (env self !! "logger") as [[| |shown|]|] eqn:Hlg;
    try by eexists _, _.
  destruct Hmissing as [Hno | ->]; [|by eexists _, _].
  by destruct (Hno shown).
Qed.

Lemma bionode_clear_needs_env_witness :
  ∃ owner attr,
    BioNode.check_packages_source (node_on debian_env)
      (world_with debian_env [])
    = (Raised (AttributeError owner attr), world_with debian_env []).
Proof.
  apply (bionode_clear_needs_env (node_on debian_env)
           (world_with debian_env [])).
  right. vm_compute; reflexivity.
Defined.

(** ** The system upgrade, continued *)

(** X12: [Edition.apt_upgrade_system] returns exactly when it finds a
    sudo function ([env] left out or empty, or carrying a callable
    [safe_sudo]) and the host runs the upgrade.  If it finds none it
    raises before anything is sent to the host and leaves the world as it
    was; if the host fails, that failure is what it raises. *)
Theorem base_upgrade_returns_iff (self : Self) (env : option Env)
    (w : World) :
  ((Edition.apt_upgrade_system self env w).1 = Returned () ↔
     sudo_available env ∧ remote_ok w upgrade_cmd = true)
  ∧ (¬ sudo_available env →
     (Edition.apt_upgrade_system self env w).2 = w
     ∧ ∃ e, (Edition.apt_upgrade_system self env w).1 = Raised e
            ∧ e ≠ RemoteFailure upgrade_cmd)
  ∧ (sudo_available env → remote_ok w upgrade_cmd = false →
     (Edition.apt_upgrade_system self env w).1
     = Raised (RemoteFailure upgrade_cmd)).
Proof.
  assert (Hrun : ∀ via, (remote_exec via upgrade_cmd w).1
            = if remote_ok w upgrade_cmd then Returned ()
              else Raised (RemoteFailure upgrade_cmd)).
  { intros via. unfold remote_exec, mbind, M_bind, log_event, host_runs.
    cbn [remote_ok emit]. by destruct (remote_ok w upgrade_cmd). }
  unfold Edition.apt_upgrade_system. unfold upgrade_cmd in *.
  destruct (env_truthy env) eqn:Htruthy.
  - destruct env as [e|]; [|discriminate].
    unfold getattr_opt, getattr, mbind, M_bind, mret, M_ret.
    destruct (e !! "safe_sudo") as [[| | |shown]|] eqn:Hsudo; cbv beta iota;
      cbn [py_call raise fst snd].
    5: { split; [|split].
         - split; [discriminate|].
           intros [[Hf | (e' & sh & [= <-] & He')] _]; congruence.
         - intros _. split; [done|]. eexists. split; [done|discriminate].
         - intros [Hf | (e' & sh & [= <-] & He')]; congruence. }
    4: { assert (Hav : sudo_available (Some e))
           by (right; by exists e, shown).
         rewrite Hrun. split; [|split].
         - destruct (remote_ok w _);
             [ split; [intros _; by split | done]
             | split; [discriminate | intros [_ ?]; discriminate] ].
         - intros Hno. by destruct Hno.
         - by intros _ ->. }
    all: split; [|split];
      [ split; [discriminate|];
        intros [[Hf | (e' & sh & [= <-] & He')] _]; congruence
      | intros _; split; [done|]; eexists; split; [done|discriminate]
      | intros [Hf | (e' & sh & [= <-] & He')]; congruence ].
  - assert (Hav : sudo_available env) by (by left).
    unfold mbind, M_bind, mret, M_ret. cbv beta iota.
    unfold sudo. rewrite Hrun. split; [|split].
    + destruct (remote_ok w _);
        [ split; [intros _; by split | done]
        | split; [discriminate | intros [_ ?]; discriminate] ].
    + intros Hno. by destruct Hno.
    + by intros _ ->.
Qed.

Lemma base_upgrade_returns_iff_witness :
  (Edition.apt_upgrade_system (node_on debian_env) (Some debian_env)
     (world_with debian_env [])).1 = Returned ().
Proof.
  apply (proj1 (base_upgrade_returns_iff (node_on debian_env)
                  (Some debian_env) (world_with debian_env []))).
  split; [|reflexivity].
  right. exists debian_env, "<function safe_sudo>".
  split; [reflexivity | vm_compute; reflexivity].
Defined.

(** ** Hooks without effects *)

(** X13: in each of the four editions, [check_distribution],
    [rewrite_apt_preferences], [rewrite_apt_automation] and
    [rewrite_apt_keys] return for every input, raise nothing and leave
    the world as it was; so do [check_packages_source] and
    [rewrite_apt_sources_list] everywhere but in BioNode, and
    [post_install] everywhere but in CloudBioLinux.  The preferences come
    back unchanged from every edition but BioNode. *)
Theorem quiet_hooks (k : kind) (self : Self)
    (sources preferences package_info standalone keyserver : list string)
    (pkg_install : option (list string)) (w : World) :
  m_check_distribution (class_of k) self w = (Returned (), w)
  ∧ (∃ out, m_rewrite_apt_preferences (class_of k) self preferences w
            = (Returned out, w)
            ∧ (k ≠ KBioNode → out = preferences))
  ∧ (∃ out, m_rewrite_apt_automation (class_of k) self package_info w
            = (Returned out, w))
  ∧ (∃ out, m_rewrite_apt_keys (class_of k) self standalone keyserver w
            = (Returned out, w))
  ∧ (k ≠ KBioNode →
     m_check_packages_source (class_of k) self w = (Returned (), w)
     ∧ ∃ out, m_rewrite_apt_sources_list (class_of k) self sources w
              = (Returned out, w))
  ∧ (k ≠ KCloudBioLinux →
     m_post_install (class_of k) self pkg_install w = (Returned (), w)).
Proof.
  destruct k;
    repeat match goal with
           | H : ?x ≠ ?x |- _ => by destruct H
           | |- _ ∧ _ => split
           | |- ∃ _, _ => eexists
           | |- _ → _ => intros ?
           | |- _ = _ => reflexivity || congruence
           end.
Qed.

(** ** Splitting into lines *)

Lemma split_nonempty (sep : ascii) (s : string) : split sep s ≠ [].
Proof.
  destruct s as [|c s]; [discriminate|]. cbn [split].
  destruct (Ascii.eqb c sep); [discriminate|].
  destruct (split sep s); discriminate.
Qed.

(** X14: [split], by which [BioNode.rewrite_apt_preferences] turns its
    text into lines, loses nothing: the pieces joined by the separator
    are the text again, no piece contains the separator, and there is one
    piece more than the text has separators (so always at least one). *)
Theorem split_join (sep : ascii) (s : string) :
  join_with (String sep "") (split sep s) = s
  ∧ Forall (λ piece, sep ∉ string_chars piece) (split sep s)
  ∧ length (split sep s)
    = S (length (filter (λ c, c = sep) (string_chars s))).
Proof.
  induction s as [|c s (IHj & IHf & IHl)].
  - cbn. repeat split. repeat constructor. apply not_elem_of_nil.
  - cbn [split string_chars]. destruct (Ascii.eqb_spec c sep) as [-> | Hne].
    + rewrite filter_cons_True by done. cbn [length]. split; [|split].
      * pose proof (split_nonempty sep s) as Hn.
        destruct (split sep s) as [|p ps]; [done|].
        cbn [join_with]. cbn. by rewrite <- IHj.
      * apply Forall_cons_2; [apply not_elem_of_nil | done].
      * by rewrite IHl.
    + rewrite filter_cons_False by done.
      pose proof (split_nonempty sep s) as Hn.
      destruct (split sep s) as [|p ps]; [done|].
      split; [|split].
      * rewrite <- IHj. by destruct ps.
      * apply Forall_cons_1 in IHf as [Hp Hps].
        apply Forall_cons_2; [|done]. cbn [string_chars].
        apply not_elem_of_cons. split; [congruence | done].
      * exact IHl.
Qed.

(** ** What the source list of BioNode is read from *)

(** X15: of the edition's own environment,
    [BioNode.rewrite_apt_sources_list] reads the logger and the
    distribution and nothing else: two editions whose environments agree
    on these two give the same result in the same world, whatever dist
    name or repository their own environments hold (those are taken from
    the global environment). *)
Theorem bionode_sources_reads (self self' : Self)
    (sources sources' : list string) (w : World) :
  env self !! "logger" = env self' !! "logger" →
  env self !! "distribution" = env self' !! "distribution" →
  BioNode.rewrite_apt_sources_list self sources w
  = BioNode.rewrite_apt_sources_list self' sources' w.
Proof.
  intros Hlg Hdist. by rewrite !bionode_sources_cases, Hlg, Hdist.
Qed.

Lemma bionode_sources_reads_witness :
  BioNode.rewrite_apt_sources_list (node_on lenny_env) []
    (world_with debian_env [])
  = BioNode.rewrite_apt_sources_list (node_on debian_env) ["deb a b c"]
      (world_with debian_env []).
Proof.
  apply (bionode_sources_reads (node_on lenny_env) (node_on debian_env)
           [] ["deb a b c"] (world_with debian_env []));
    vm_compute; reflexivity.
Defined.
